(** * TaskFlow: schema introspection and the generic repository

    A shallow embedding of [backend/core/schema/introspection.py] and
    [backend/core/repositories/base.py], together with the parts of the
    Django API those two modules call (field defaults, the paginator, the
    model life cycle), and the properties of the specification proved or
    refuted against it. *)

From Stdlib Require Import ZArith Ascii String List Bool Lia.
From stdpp Require Import base option list gmap strings pretty fin_maps.

#[local] Set Warnings "-register-all".

Local Open Scope string_scope.
Local Open Scope Z_scope.

(** ** Python values *)

(** A run-time object as the introspected fields hold them (defaults,
    choice values, labels).  The five primitive classes are the ones
    [isinstance(default, (str, int, float, bool, type(None)))] accepts; a
    float is identified by its [repr].  Every other object is kept by what
    the code can observe of it: its [str()] form and, when it is callable
    without argument, the value a call returns. *)
Inductive pyobj : Type :=
| ONone
| OBool (b : bool)
| OInt (n : Z)
| OFloat (repr : string)
| OStr (s : string)
| OObject (str_form : string) (call : option pyobj).

(** Values the introspector builds: objects stored verbatim, list
    displays and dict displays. *)
Inductive pyval : Type :=
| PObj (o : pyobj)
| PList (l : list pyval)
| PDict (d : gmap string pyval).

Definition PNone : pyval := PObj ONone.
Definition PBool (b : bool) : pyval := PObj (OBool b).
Definition PInt (n : Z) : pyval := PObj (OInt n).
Definition PStr (s : string) : pyval := PObj (OStr s).

(** [callable(v)] *)
Definition callable (v : pyobj) : bool :=
  match v with
  | OObject _ (Some _) => true
  | _ => false
  end.

(** [isinstance(v, (str, int, float, bool, type(None)))] *)
Definition isinstance_primitive (v : pyobj) : bool :=
  match v with
  | ONone | OBool _ | OInt _ | OFloat _ | OStr _ => true
  | OObject _ _ => false
  end.

(** [str(v)]; integers print in decimal. *)
Definition py_str (v : pyobj) : string :=
  match v with
  | ONone => "None"
  | OBool true => "True"
  | OBool false => "False"
  | OInt n => pretty n
  | OFloat repr => repr
  | OStr s => s
  | OObject str_form _ => str_form
  end.

(** An optional attribute value ([None] or an int) stored verbatim. *)
Definition of_optional_int (v : option Z) : pyval :=
  match v with
  | Some n => PInt n
  | None => PNone
  end.

(** Truth value of an attribute that is [None] or an int. *)
Definition truthy_int (v : option Z) : bool :=
  match v with
  | Some n => negb (n =? 0)
  | None => false
  end.

(** Truth value of an attribute that is [None] or a list. *)
Definition truthy_list {A : Type} (v : option (list A)) : bool :=
  match v with
  | Some (_ :: _) => true
  | _ => false
  end.

(** ** String methods

    Strings are byte strings here; the methods act on the ASCII letters and
    leave every other byte as it is. *)

Definition is_upper (c : ascii) : bool :=
  let n := nat_of_ascii c in (65 <=? n)%nat && (n <=? 90)%nat.

Definition is_lower (c : ascii) : bool :=
  let n := nat_of_ascii c in (97 <=? n)%nat && (n <=? 122)%nat.

Definition to_lower (c : ascii) : ascii :=
  if is_upper c then ascii_of_nat (nat_of_ascii c + 32) else c.

Definition to_upper (c : ascii) : ascii :=
  if is_lower c then ascii_of_nat (nat_of_ascii c - 32) else c.

Fixpoint str_map (f : ascii -> ascii) (s : string) : string :=
  match s with
  | EmptyString => EmptyString
  | String c s' => String (f c) (str_map f s')
  end.

(** [s.lower()] *)
Definition lower (s : string) : string := str_map to_lower s.

(** [s.capitalize()]: first character upper-cased, the rest lower-cased. *)
Definition capitalize (s : string) : string :=
  match s with
  | EmptyString => EmptyString
  | String c s' => String (to_upper c) (lower s')
  end.

(** [s.replace(old, new)] for one-character [old] and [new]. *)
Definition replace_char (old new : ascii) (s : string) : string :=
  str_map (fun c => if Ascii.eqb c old then new else c) s.

(** [s.title()]: a letter that follows an uncased character is
    upper-cased, a letter that follows a letter is lower-cased. *)
Fixpoint title_from (previous_is_cased : bool) (s : string) : string :=
  match s with
  | EmptyString => EmptyString
  | String c s' =>
      if is_lower c || is_upper c
      then String (if previous_is_cased then to_lower c else to_upper c)
                  (title_from true s')
      else String c (title_from false s')
  end.

Definition title (s : string) : string := title_from false s.

(** ** Model catalog: fields and models as Django exposes them *)

(** Which of [ForeignKey], [OneToOneField], [ManyToManyField] a field is an
    instance of. *)
Inductive RelationKind : Type :=
| ForeignKey
| OneToOneField
| ManyToManyField.

(** The attributes of a field object that the introspector reads.  An
    attribute probed with [hasattr] is an [option]: [None] when the object
    does not have it.  [field_default] is [None] for [NOT_PROVIDED]. *)
Record Field : Type := mkField {
  field_class_name : string;                     (* field.__class__.__name__ *)
  field_relation : option (RelationKind * string); (* kind, related_model.__name__ *)
  field_name : string;
  field_null : bool;
  field_blank : bool;
  field_default : option pyobj;
  field_empty_strings_allowed : bool;
  field_verbose_name : option string;
  field_help_text : string;
  field_max_length : option (option Z);
  field_choices : option (option (list (pyobj * pyobj)));
  field_max_digits : option (option Z);
  field_decimal_places : option (option Z);
  field_unique : option bool;
  field_auto_created : bool;
  field_concrete : bool
}.

(** [Field.has_default()]: [self.default is not NOT_PROVIDED]. *)
Definition has_default (field : Field) : bool :=
  match field_default field with
  | Some _ => true
  | None => false
  end.

(** [Field.get_default()].  Django returns [self._get_default()], where
    [_get_default] is the declared default itself when that is callable and
    [lambda: self.default] otherwise: a callable default is called, and
    the value of the call is what the caller receives.  Without a default
    the result is [None], or the empty string for a non-null field that
    allows empty strings. *)
Definition get_default (field : Field) : pyobj :=
  match field_default field with
  | Some (OObject _ (Some returned)) => returned
  | Some v => v
  | None =>
      if negb (field_empty_strings_allowed field) || field_null field
      then ONone
      else OStr ""
  end.

(** ** introspection.py *)

Definition type_mapping : gmap string string :=
  list_to_map [
    ("AutoField", "auto");
    ("BigAutoField", "auto");
    ("CharField", "string");
    ("TextField", "text");
    ("IntegerField", "integer");
    ("BigIntegerField", "integer");
    ("PositiveIntegerField", "integer");
    ("SmallIntegerField", "integer");
    ("FloatField", "float");
    ("DecimalField", "decimal");
    ("BooleanField", "boolean");
    ("DateField", "date");
    ("DateTimeField", "datetime");
    ("TimeField", "time");
    ("EmailField", "email");
    ("URLField", "url");
    ("SlugField", "slug");
    ("UUIDField", "uuid");
    ("FileField", "file");
    ("ImageField", "image");
    ("JSONField", "json");
    ("ForeignKey", "foreignkey");
    ("OneToOneField", "onetoone");
    ("ManyToManyField", "manytomany")
  ].

Definition get_field_type (field : Field) : string :=
  let field_class_name := field_class_name field in
  default (lower field_class_name) (type_mapping !! field_class_name).

(** [d.update(other)]: the keys of [other] win. *)
Definition dict_update (d other : gmap string pyval) : gmap string pyval :=
  other ∪ d.

(** The [default] entry of a scalar field. *)
Definition default_entry (field : Field) : pyval :=
  if has_default field then
    let default := get_default field in
    if callable default then PNone
    else if isinstance_primitive default then PObj default
    else PStr (py_str default)
  else PNone.

Definition choices_entry (choices : list (pyobj * pyobj)) : pyval :=
  PList (map (fun choice =>
                PDict (list_to_map [("value", PObj (fst choice));
                                    ("label", PObj (snd choice))]))
             choices).

Definition get_field_schema (field : Field) : gmap string pyval :=
  let field_info : gmap string pyval :=
    list_to_map [
      ("name", PStr (field_name field));
      ("type", PStr (get_field_type field));
      ("required",
       PBool (negb (field_null field) && negb (field_blank field)
              && negb (has_default field)));
      ("label",
       PStr (match field_verbose_name field with
             | Some verbose_name => capitalize verbose_name
             | None => title (replace_char "_" " " (field_name field))
             end));
      ("help_text",
       if negb (String.eqb (field_help_text field) "")
       then PStr (field_help_text field) else PNone)
    ] in
  match field_relation field with
  | Some (kind, related_model) =>
      dict_update field_info
        (list_to_map [
           ("related_model", PStr related_model);
           ("many", PBool (match kind with ManyToManyField => true | _ => false end))
         ])
  | None =>
      let field_info :=
        match field_max_length field with
        | Some max_length =>
            if truthy_int max_length
            then <["max_length" := of_optional_int max_length]> field_info
            else field_info
        | None => field_info
        end in
      let field_info :=
        match field_choices field with
        | Some (Some choices) =>
            if truthy_list (Some choices)
            then <["choices" := choices_entry choices]> field_info
            else field_info
        | _ => field_info
        end in
      let field_info := <["default" := default_entry field]> field_info in
      let field_info :=
        match field_max_digits field with
        | Some max_digits => <["max_digits" := of_optional_int max_digits]> field_info
        | None => field_info
        end in
      let field_info :=
        match field_decimal_places field with
        | Some decimal_places =>
            <["decimal_places" := of_optional_int decimal_places]> field_info
        | None => field_info
        end in
      let field_info :=
        match field_unique field with
        | Some unique => <["unique" := PBool unique]> field_info
        | None => field_info
        end in
      field_info
  end.

(** What the introspector reads of a model class: its name and its
    [_meta] options.  [meta_get_fields] is [_meta.get_fields()], which
    lists the declared fields, the automatic primary key and the reverse
    relations other models point at this one. *)
Record Model : Type := mkModel {
  model_name : string;                 (* model_class.__name__ *)
  meta_app_label : string;
  meta_db_table : string;
  meta_verbose_name : string;
  meta_verbose_name_plural : string;
  meta_abstract : bool;
  meta_get_fields : list Field
}.

(** The test of the loop of [get_model_schema]:
    [field.auto_created and not field.concrete]. *)
Definition is_reverse_relation (field : Field) : bool :=
  field_auto_created field && negb (field_concrete field).

Definition get_model_schema (model_class : Model) : gmap string pyval :=
  let fields_schema :=
    foldl (fun fields_schema field =>
             if is_reverse_relation field then fields_schema
             else (fields_schema ++ [get_field_schema field])%list)
          [] (meta_get_fields model_class) in
  list_to_map [
    ("model_name", PStr (model_name model_class));
    ("app_label", PStr (meta_app_label model_class));
    ("table_name", PStr (meta_db_table model_class));
    ("verbose_name", PStr (meta_verbose_name model_class));
    ("verbose_name_plural", PStr (meta_verbose_name_plural model_class));
    ("fields", PList (PDict <$> fields_schema))
  ].

(** The field entries of a schema document. *)
Definition schema_fields (schema : gmap string pyval) : list (gmap string pyval) :=
  match schema !! "fields" with
  | Some (PList entries) =>
      omap (fun entry => match entry with PDict d => Some d | _ => None end) entries
  | _ => []
  end.

Definition builtin_apps : list string :=
  ["auth"; "contenttypes"; "sessions"; "admin"].

(** [get_all_models_schema(app_label)]; [apps_get_models] is the registry,
    [apps.get_models()]. *)
Definition get_all_models_schema (apps_get_models : list Model)
    (app_label : option string) : gmap string (gmap string pyval) :=
  let models := apps_get_models in
  let models :=
    match app_label with
    | Some label =>
        if negb (String.eqb label "")
        then filter (fun m => meta_app_label m = label) models
        else models
    | None => models
    end in
  foldl (fun schemas model =>
           if meta_abstract model then schemas
           else if bool_decide (meta_app_label model ∈ builtin_apps) then schemas
           else <[model_name model := get_model_schema model]> schemas)
        ∅ models.

Definition validate_model_access (model_name : string)
    (allowed_models : option (list string)) : bool :=
  match allowed_models with
  | None => true
  | Some allowed => bool_decide (model_name ∈ allowed)
  end.

(** ** Exceptions and outcomes *)

Inductive exn : Type :=
| DoesNotExist
| ValidationError (error_dict : gmap string (list string))
| EmptyPage
| ZeroDivisionError
| TypeError
| ValueError
| FieldError.

Inductive outcome (A : Type) : Type :=
| Return (a : A)
| Raise (e : exn).
Arguments Return {A} a.
Arguments Raise {A} e.

Definition outcome_bind {A B : Type} (f : A -> outcome B) (m : outcome A) : outcome B :=
  match m with
  | Return a => f a
  | Raise e => Raise e
  end.

#[global] Instance outcome_ret : MRet outcome := @Return.
#[global] Instance outcome_mbind : MBind outcome := @outcome_bind.

(** ** django.core.paginator *)

Module Paginator.

(** [object_list[bottom:top]] on a sequence, with Python's clamping of the
    two bounds. *)
Definition slice_bound (len i : Z) : Z :=
  if i <? 0 then Z.max 0 (len + i) else Z.min i len.

Definition slice {A : Type} (l : list A) (bottom top : Z) : list A :=
  let len := Z.of_nat (length l) in
  let lo := slice_bound len bottom in
  let hi := slice_bound len top in
  take (Z.to_nat (hi - lo)) (drop (Z.to_nat lo) l).

(** [ceil(hits / per_page)] for a non-zero [per_page]. *)
Definition ceil_div (hits per_page : Z) : Z := - ((- hits) / per_page).

Record t (A : Type) : Type := mk {
  object_list : list A;
  per_page : Z;
  orphans : Z;
  allow_empty_first_page : bool
}.
Arguments mk {A}.
Arguments object_list {A}.
Arguments per_page {A}.
Arguments orphans {A}.
Arguments allow_empty_first_page {A}.

Record Page (A : Type) : Type := mkPage {
  page_object_list : list A;
  page_number : Z
}.
Arguments mkPage {A}.
Arguments page_object_list {A}.
Arguments page_number {A}.

(** [Paginator(object_list, per_page)] with the keyword defaults. *)
Definition new {A : Type} (object_list : list A) (per_page : Z) : t A :=
  mk object_list per_page 0 true.

Definition count {A : Type} (self : t A) : Z :=
  Z.of_nat (length (object_list self)).

Definition num_pages {A : Type} (self : t A) : outcome Z :=
  if (count self =? 0) && negb (allow_empty_first_page self) then Return 0
  else
    let hits := Z.max 1 (count self - orphans self) in
    if per_page self =? 0 then Raise ZeroDivisionError
    else Return (ceil_div hits (per_page self)).

Definition validate_number {A : Type} (self : t A) (number : Z) : outcome Z :=
  if number <? 1 then Raise EmptyPage
  else
    n ← num_pages self;
    if n <? number then Raise EmptyPage else Return number.

Definition page {A : Type} (self : t A) (number : Z) : outcome (Page A) :=
  number ← validate_number self number;
  let bottom := (number - 1) * per_page self in
  let top := bottom + per_page self in
  let top := if count self <=? top + orphans self then count self else top in
  Return (mkPage (slice (object_list self) bottom top) number).

(** [get_page]: an out-of-range number is replaced by the last page. *)
Definition get_page {A : Type} (self : t A) (number : Z) : outcome (Page A) :=
  match validate_number self number with
  | Return number => page self number
  | Raise EmptyPage => number ← num_pages self; page self number
  | Raise e => Raise e
  end.

End Paginator.

(** ** The persistence layer under the repository *)

(** A model instance is its attributes by name; a row of the model's table
    is the same mapping, stored under its primary key.  The primary key is
    the attribute [id], as for every model of [apps/tasks/models.py]. *)
Abbreviation Instance := (gmap string pyobj).
Abbreviation Table := (gmap Z (gmap string pyobj)).

(** A computation that reads and writes the model's table and may raise:
    the outcome and the table it leaves behind. *)
Definition M (A : Type) : Type := Table -> outcome A * Table.

Definition M_ret {A : Type} (a : A) : M A := fun db => (Return a, db).

Definition M_bind {A B : Type} (f : A -> M B) (m : M A) : M B :=
  fun db =>
    match m db with
    | (Return a, db') => f a db'
    | (Raise e, db') => (Raise e, db')
    end.

#[global] Instance M_mret : MRet M := @M_ret.
#[global] Instance M_mbind : MBind M := @M_bind.

Definition raise {A : Type} (e : exn) : M A := fun db => (Raise e, db).

(** A computation that does not touch the table. *)
Definition lift {A : Type} (o : outcome A) : M A := fun db => (o, db).

(** What the repository needs of the model class it is bound to. *)
Class ModelClass : Type := {
  (* the constructor called with [data] as keywords: [TypeError] on an
     unexpected one *)
  model_init : list (string * pyobj) -> outcome Instance;
  (* the messages [full_clean()] collects, by field name *)
  clean_errors : Table -> Instance -> gmap string (list string);
  (* what the model's [save()] does to the instance before the write *)
  save_hook : Instance -> Instance;
  (* [queryset.filter] with [filters] as keywords: [FieldError] on an
     unknown field *)
  queryset_filter : list (string * pyobj) -> list Instance -> outcome (list Instance);
  (* [queryset.order_by] with the names of [order_by] *)
  queryset_order_by : list string -> list Instance -> outcome (list Instance);
  (* [Meta.ordering] *)
  meta_ordering : list Instance -> list Instance
}.

Definition pk_of (instance : Instance) : option Z :=
  match instance !! "id" with
  | Some (OInt k) => Some k
  | _ => None
  end.

(** The key the database gives to a new row. *)
Definition next_pk (db : Table) : Z :=
  1 + map_fold (fun k _ acc => Z.max k acc) 0 db.

(** [setattr(instance, key, value)] *)
Definition setattr (instance : Instance) (key : string) (value : pyobj) : Instance :=
  <[key := value]> instance.

(** ** repositories/base.py

    [create_repository(model_class)] returns five functions closed over
    [model_class]; they are the functions of this module, with the class
    as their first, implicit argument. *)
Module Repository.
Section create_repository.
Context {model_class : ModelClass}.

(** [model_class.objects.all()] *)
Definition objects_all : M (list Instance) :=
  fun db => (Return (meta_ordering (snd <$> map_to_list db)), db).

(** [model_class.objects.get(pk=id)] *)
Definition objects_get (id : Z) : M Instance :=
  fun db =>
    match db !! id with
    | Some row => (Return (<["id" := OInt id]> row), db)
    | None => (Raise DoesNotExist, db)
    end.

(** [instance.full_clean()] *)
Definition full_clean (instance : Instance) : M unit :=
  fun db =>
    let errors := clean_errors db instance in
    if decide (errors = ∅) then (Return tt, db)
    else (Raise (ValidationError errors), db).

(** [instance.save()]: an insert under a new key when the instance has no
    primary key yet, a write under its key otherwise. *)
Definition save (instance : Instance) : M Instance :=
  fun db =>
    let instance := save_hook instance in
    let k := match pk_of instance with
             | Some k => k
             | None => next_pk db
             end in
    let instance := <["id" := OInt k]> instance in
    (Return instance, <[k := instance]> db).

(** [instance.delete()] *)
Definition instance_delete (instance : Instance) : M unit :=
  fun db =>
    match pk_of instance with
    | Some k => (Return tt, delete k db)
    | None => (Raise ValueError, db)
    end.

(** The functions [create_repository] returns. *)

Record PageResult : Type := mkPageResult {
  data : list Instance;
  page : Z;
  total_pages : Z;
  total_count : Z
}.

(** The first half of [get_all]: the queryset, filtered when [filters] is
    a non-empty dict and ordered when [order_by] is a non-empty list. *)
Definition get_all_queryset (filters : option (list (string * pyobj)))
    (order_by : option (list string)) : M (list Instance) :=
  queryset ← objects_all;
  queryset ← match filters with
              | Some (f :: fs) => lift (queryset_filter (f :: fs) queryset)
              | _ => mret queryset
              end;
  match order_by with
  | Some (o :: os) => lift (queryset_order_by (o :: os) queryset)
  | _ => mret queryset
  end.

Definition get_all (filters : option (list (string * pyobj)))
    (order_by : option (list string)) (page page_size : Z) : M PageResult :=
  queryset ← get_all_queryset filters order_by;
  let paginator := Paginator.new queryset page_size in
  page_obj ← lift (Paginator.get_page paginator page);
  num_pages ← lift (Paginator.num_pages paginator);
  mret (mkPageResult (Paginator.page_object_list page_obj) page
                     num_pages (Paginator.count paginator)).

Definition get_by_id (id : Z) : M (option Instance) :=
  fun db =>
    match objects_get id db with
    | (Return instance, db') => (Return (Some instance), db')
    | (Raise DoesNotExist, db') => (Return None, db')
    | (Raise e, db') => (Raise e, db')
    end.

Definition create (data : list (string * pyobj)) : M Instance :=
  instance ← lift (model_init data);
  _ ← full_clean instance;
  instance ← save instance;
  mret instance.

Definition update (id : Z) (data : list (string * pyobj)) : M (option Instance) :=
  instance ← get_by_id id;
  match instance with
  | None => mret None
  | Some instance =>
      let instance :=
        foldl (fun instance item => setattr instance (fst item) (snd item))
              instance data in
      _ ← full_clean instance;
      instance ← save instance;
      mret (Some instance)
  end.

Definition delete (id : Z) : M bool :=
  instance ← get_by_id id;
  match instance with
  | None => mret false
  | Some instance =>
      _ ← instance_delete instance;
      mret true
  end.

End create_repository.
End Repository.

(** ** apps/tasks/models.py: the declarations used below *)

(** A field object of class [cls] as [Field.__init__] leaves it for the
    keyword arguments given; [verbose_name] is the name with underscores
    turned into spaces. *)
Definition declared_field (cls name help_text : string) (null blank : bool)
    (default : option pyobj) (max_length : option Z) (unique : bool) : Field :=
  {| field_class_name := cls;
     field_relation := None;
     field_name := name;
     field_null := null;
     field_blank := blank;
     field_default := default;
     field_empty_strings_allowed := true;
     field_verbose_name := Some (replace_char "_" " " name);
     field_help_text := help_text;
     field_max_length := Some max_length;
     field_choices := Some None;
     field_max_digits := None;
     field_decimal_places := None;
     field_unique := Some unique;
     field_auto_created := false;
     field_concrete := true |}.

(** A [ForeignKey], [OneToOneField] or [ManyToManyField] declaration; a
    many-to-many field has no column of its own. *)
Definition declared_relation (kind : RelationKind) (name related_model help_text : string)
    (null blank : bool) : Field :=
  {| field_class_name := match kind with
                         | ForeignKey => "ForeignKey"
                         | OneToOneField => "OneToOneField"
                         | ManyToManyField => "ManyToManyField"
                         end;
     field_relation := Some (kind, related_model);
     field_name := name;
     field_null := null;
     field_blank := blank;
     field_default := None;
     field_empty_strings_allowed := false;
     field_verbose_name := Some (replace_char "_" " " name);
     field_help_text := help_text;
     field_max_length := Some None;
     field_choices := Some None;
     field_max_digits := None;
     field_decimal_places := None;
     field_unique := Some (match kind with OneToOneField => true | _ => false end);
     field_auto_created := false;
     field_concrete := match kind with ManyToManyField => false | _ => true end |}.

(** The primary key Django adds to a model that declares none. *)
Definition auto_id : Field :=
  {| field_class_name := "BigAutoField";
     field_relation := None;
     field_name := "id";
     field_null := false;
     field_blank := true;
     field_default := None;
     field_empty_strings_allowed := false;
     field_verbose_name := Some "ID";
     field_help_text := "";
     field_max_length := Some None;
     field_choices := Some None;
     field_max_digits := None;
     field_decimal_places := None;
     field_unique := Some true;
     field_auto_created := true;
     field_concrete := true |}.

(** The object [get_fields()] lists on the target of a relation declared
    by another model (a [ManyToOneRel], [ManyToManyRel], ...): created
    automatically, without a column. *)
Definition reverse_relation (cls name : string) : Field :=
  {| field_class_name := cls;
     field_relation := None;
     field_name := name;
     field_null := true;
     field_blank := false;
     field_default := None;
     field_empty_strings_allowed := false;
     field_verbose_name := None;
     field_help_text := "";
     field_max_length := None;
     field_choices := None;
     field_max_digits := None;
     field_decimal_places := None;
     field_unique := None;
     field_auto_created := true;
     field_concrete := false |}.

(** [timezone.now]: a function; a call returns the current datetime, an
    object whose [str()] form is [now]. *)
Definition timezone_now (now : string) : pyobj :=
  OObject "<function now>" (Some (OObject now None)).

(** [TeamMember.joined_at = models.DateField(default=timezone.now, ...)] *)
Definition TeamMember_joined_at (now : string) : Field :=
  declared_field "DateField" "joined_at" "Date joined the team" false false
                 (Some (timezone_now now)) None false.

(** [Task.due_date = models.DateField(null=True, blank=True, ...)] *)
Definition Task_due_date : Field :=
  declared_field "DateField" "due_date" "Task due date" true true None None false.

(** [Task.project], [Task.assigned_to] and [Task.tags] *)
Definition Task_project : Field :=
  declared_relation ForeignKey "project" "Project" "Project this task belongs to"
                    false false.

Definition Task_assigned_to : Field :=
  declared_relation ForeignKey "assigned_to" "TeamMember"
                    "Team member assigned to this task" true true.

Definition Task_tags : Field :=
  declared_relation ManyToManyField "tags" "Tag" "Tags for categorization" false true.

(** The fields of [Tag] *)
Definition Tag_name : Field :=
  declared_field "CharField" "name" "Tag name" false false None (Some 50) true.

Definition Tag_color : Field :=
  declared_field "CharField" "color" "Hex color code (e.g., #3B82F6)" false false
                 (Some (OStr "#3B82F6")) (Some 7) false.

(** [auto_now_add=True] makes the field blank-allowed. *)
Definition Tag_created_at : Field :=
  declared_field "DateTimeField" "created_at" "" false true None None false.

(** [Tag]; [Task.tags] gives it the reverse relation [tasks]. *)
Definition Tag : Model :=
  {| model_name := "Tag";
     meta_app_label := "tasks";
     meta_db_table := "tasks_tag";
     meta_verbose_name := "Tag";
     meta_verbose_name_plural := "Tags";
     meta_abstract := false;
     meta_get_fields :=
       [reverse_relation "ManyToManyRel" "tasks";
        auto_id; Tag_name; Tag_color; Tag_created_at] |}.

(** A model of Django's own [auth] application, as the registry holds
    it next to the project's models. *)
Definition auth_Group : Model :=
  {| model_name := "Group";
     meta_app_label := "auth";
     meta_db_table := "auth_group";
     meta_verbose_name := "group";
     meta_verbose_name_plural := "groups";
     meta_abstract := false;
     meta_get_fields :=
       [auto_id;
        declared_field "CharField" "name" "" false false None (Some 150) true] |}.

(** ** The model class [Tag] under the repository

    The query layer below covers what the repository is exercised with
    here: keyword filters that name a column and compare for equality, and
    ordering by columns with an optional [-] prefix.  Lookup suffixes and
    lookups across relations are outside it. *)

Fixpoint obj_eqb (a b : pyobj) : bool :=
  match a, b with
  | ONone, ONone => true
  | OBool x, OBool y => Bool.eqb x y
  | OInt x, OInt y => x =? y
  | OFloat x, OFloat y => String.eqb x y
  | OStr x, OStr y => String.eqb x y
  | OObject s c, OObject s' c' =>
      String.eqb s s' &&
      match c, c' with
      | Some r, Some r' => obj_eqb r r'
      | None, None => true
      | _, _ => false
      end
  | _, _ => false
  end.

(** The order of two column values: [NULL] first, numbers by value,
    strings byte by byte. *)
Definition compare_obj (a b : option pyobj) : comparison :=
  match a, b with
  | Some (OInt x), Some (OInt y) => x ?= y
  | Some (OStr x), Some (OStr y) => String.compare x y
  | Some (OBool x), Some (OBool y) => Nat.compare (Nat.b2n x) (Nat.b2n y)
  | (None | Some ONone), (None | Some ONone) => Eq
  | (None | Some ONone), _ => Lt
  | _, (None | Some ONone) => Gt
  | _, _ => Eq
  end.

Definition order_key (key : string) : bool * string :=
  match key with
  | String "-" column => (true, column)
  | _ => (false, key)
  end.

Fixpoint compare_rows (keys : list string) (a b : Instance) : comparison :=
  match keys with
  | [] => Eq
  | key :: keys' =>
      let (descending, column) := order_key key in
      match compare_obj (a !! column) (b !! column) with
      | Eq => compare_rows keys' a b
      | c => if descending then CompOpp c else c
      end
  end.

Fixpoint insert_row (keys : list string) (x : Instance) (l : list Instance) : list Instance :=
  match l with
  | [] => [x]
  | y :: l' =>
      match compare_rows keys x y with
      | Gt => y :: insert_row keys x l'
      | _ => x :: y :: l'
      end
  end.

(** A stable sort on the keys, the first key first. *)
Definition order_rows (keys : list string) (rows : list Instance) : list Instance :=
  foldr (insert_row keys) [] rows.

Definition known_columns (columns keys : list string) : bool :=
  forallb (fun key => bool_decide (key ∈ columns)) keys.

Definition filter_rows (columns : list string) (filters : list (string * pyobj))
    (rows : list Instance) : outcome (list Instance) :=
  if known_columns columns (fst <$> filters)
  then Return (List.filter
                 (fun row =>
                    forallb (fun item =>
                               match row !! fst item with
                               | Some v => obj_eqb v (snd item)
                               | None => false
                               end) filters)
                 rows)
  else Raise FieldError.

Definition order_by_rows (columns keys : list string) (rows : list Instance)
    : outcome (list Instance) :=
  if known_columns columns ((fun key => snd (order_key key)) <$> keys)
  then Return (order_rows keys rows)
  else Raise FieldError.

Definition Tag_columns : list string := ["id"; "name"; "color"; "created_at"].

(** What a new [Tag] holds before its keywords are applied: the default of
    each field. *)
Definition Tag_defaults : Instance :=
  list_to_map [("id", ONone); ("name", OStr ""); ("color", OStr "#3B82F6");
               ("created_at", ONone)].

Definition Tag_init (data : list (string * pyobj)) : outcome Instance :=
  if known_columns Tag_columns (fst <$> data)
  then Return (foldl (fun instance item => setattr instance (fst item) (snd item))
                     Tag_defaults data)
  else Raise TypeError.

(** The messages of a [CharField(max_length=...)] that is neither null nor
    blank-allowed. *)
Definition char_field_errors (max_length : nat) (value : option pyobj) : list string :=
  match value with
  | Some (OStr s) =>
      if String.eqb s "" then ["This field cannot be blank."]
      else if (max_length <? String.length s)%nat
           then ["Ensure this value has at most " +:+ pretty max_length +:+
                 " characters (it has " +:+ pretty (String.length s) +:+ ")."]
           else []
  | _ => ["This field cannot be null."]
  end.

(** [unique=True] on [name]: another row holds the same name. *)
Definition Tag_name_taken (db : Table) (instance : Instance) : bool :=
  existsb (fun entry =>
             negb (bool_decide (Some (fst entry) = pk_of instance))
             && match snd entry !! "name", instance !! "name" with
                | Some v, Some w => obj_eqb v w
                | _, _ => false
                end)
          (map_to_list db).

Definition add_errors (field : string) (messages : list string)
    (errors : gmap string (list string)) : gmap string (list string) :=
  match messages with
  | [] => errors
  | _ => <[field := messages]> errors
  end.

(** [full_clean] on a [Tag]: the field checks, then the uniqueness check
    for the fields that passed. *)
Definition Tag_clean_errors (db : Table) (instance : Instance) : gmap string (list string) :=
  let name_errors := char_field_errors 50 (instance !! "name") in
  let color_errors := char_field_errors 7 (instance !! "color") in
  let name_errors :=
    match name_errors with
    | [] => if Tag_name_taken db instance
            then ["Tag with this Name already exists."] else []
    | _ => name_errors
    end in
  add_errors "color" color_errors (add_errors "name" name_errors ∅).

(** [created_at] has [auto_now_add]: it is set when the row is inserted. *)
Definition Tag_save_hook (now : pyobj) (instance : Instance) : Instance :=
  match pk_of instance with
  | None => <["created_at" := now]> instance
  | Some _ => instance
  end.

(** The class [Tag] at the time [now]; [Meta.ordering] is [['name']]. *)
Definition Tag_class (now : pyobj) : ModelClass :=
  {| model_init := Tag_init;
     clean_errors := Tag_clean_errors;
     save_hook := Tag_save_hook now;
     queryset_filter := filter_rows Tag_columns;
     queryset_order_by := order_by_rows Tag_columns;
     meta_ordering := order_rows ["name"] |}.

(** Three stored tags. *)
Definition tag_row (k : Z) (name color : string) : Instance :=
  list_to_map [("id", OInt k); ("name", OStr name); ("color", OStr color);
               ("created_at", OObject "2024-01-01 00:00:00+00:00" None)].

Definition three_tags : Table :=
  list_to_map [(1, tag_row 1 "backend" "#3B82F6");
               (2, tag_row 2 "frontend" "#10B981");
               (3, tag_row 3 "urgent" "#EF4444")].

(** The three stored tags in the order of [Meta.ordering]. *)
Definition tags_by_name : list Instance :=
  [tag_row 1 "backend" "#3B82F6"; tag_row 2 "frontend" "#10B981";
   tag_row 3 "urgent" "#EF4444"].

(** ** The quantities the specification speaks of *)

(** The flag the specification derives for a field:
    NOT nullable AND NOT blank-allowed AND NOT has-default. *)
Definition derived_required (field : Field) : bool :=
  negb (field_null field) && negb (field_blank field) && negb (has_default field).


(** The rows [get_page] returns for a page number (none if it raises,
    which it does not for a page size of at least one). *)
Definition page_rows {A : Type} (object_list : list A) (per_page number : Z) : list A :=
  match Paginator.get_page (Paginator.new object_list per_page) number with
  | Return page_obj => Paginator.page_object_list page_obj
  | Raise _ => []
  end.

(** ** introspection.py: the model lookup *)

(** [get_model_by_name(model_name, app_label)].  With an application
    label the lookup is Django's [apps.get_model(app_label, model_name)],
    here [apps_get_model], which is [None] when it raises [LookupError];
    without one the registry is searched for the first class of that
    name. *)
Definition get_model_by_name (apps_get_models : list Model)
    (apps_get_model : string -> string -> option Model)
    (name : string) (app_label : option string) : option Model :=
  match app_label with
  | Some (String c label) => apps_get_model (String c label) name
  | _ => List.find (fun model => bool_decide (model_name model = name))
                   apps_get_models
  end.

(** ** views/dynamic.py *)

Module Views.

Definition ALLOWED_MODELS : list string := ["Task"; "Project"; "TeamMember"; "Tag"].

(** A request, by its method. *)
Record HttpRequest : Type := mkRequest { method : string }.

(** A response: a [JsonResponse] by the dict it was given and its status,
    or the [HttpResponseNotAllowed] of the method decorator. *)
Inductive HttpResponse : Type :=
| JsonResponse (data : gmap string pyval) (status : Z)
| HttpResponseNotAllowed (permitted_methods : list string).

(** [@require_http_methods(request_method_list)] around a view. *)
Definition require_http_methods (request_method_list : list string)
    (view : HttpRequest -> HttpResponse) (request : HttpRequest) : HttpResponse :=
  if bool_decide (method request ∈ request_method_list)
  then view request
  else HttpResponseNotAllowed request_method_list.

Section views.
(** The registry: [apps.get_models()] and [apps.get_model]. *)
Variable apps_get_models : list Model.
Variable apps_get_model : string -> string -> option Model.

Definition get_schema_view (request : HttpRequest) (model_name : string) : HttpResponse :=
  require_http_methods ["GET"]
    (fun request =>
       if negb (validate_model_access model_name (Some ALLOWED_MODELS))
       then JsonResponse
              {["error" := PStr ("Model " +:+ model_name +:+ " is not accessible")]}
              403
       else
         match get_model_by_name apps_get_models apps_get_model model_name None with
         | None =>
             JsonResponse
               {["error" := PStr ("Model " +:+ model_name +:+ " not found")]} 404
         | Some model_class => JsonResponse (get_model_schema model_class) 200
         end)
    request.

Definition get_all_schemas_view (request : HttpRequest) : HttpResponse :=
  require_http_methods ["GET"]
    (fun request =>
       let all_schemas := get_all_models_schema apps_get_models None in
       let filtered_schemas :=
         filter (fun item => fst item ∈ ALLOWED_MODELS) all_schemas in
       JsonResponse (PDict <$> filtered_schemas) 200)
    request.

Definition health_check (request : HttpRequest) : HttpResponse :=
  require_http_methods ["GET"]
    (fun request =>
       JsonResponse
         (list_to_map [("status", PStr "ok");
                       ("message", PStr "TaskFlow API is running")])
         200)
    request.

End views.
End Views.

(** ** config/urls.py *)

Module Urls.

(** A piece of a route between two slashes: a literal, or a
    [<str:name>] converter, which takes one non-empty piece. *)
Inductive Segment : Type :=
| Literal (text : string)
| StrParam (name : string).

(** What a pattern leads to. *)
Inductive Target : Type :=
| admin_site_urls
| health_check
| get_schema_view
| get_all_schemas_view.

(** A [path(route, target)] entry.  [include] is true for the entry that
    hands the rest of the path to another URLconf ([admin.site.urls]),
    which matches any path that starts with the route. *)
Record Pattern : Type := mkPattern {
  route : list Segment;
  include : bool;
  target : Target
}.

Definition urlpatterns : list Pattern :=
  [ mkPattern [Literal "admin"] true admin_site_urls;
    mkPattern [Literal "api"; Literal "health"] false health_check;
    mkPattern [Literal "api"; Literal "schema"; StrParam "model_name"] false
              get_schema_view;
    mkPattern [Literal "api"; Literal "schema"; Literal "all"] false
              get_all_schemas_view ].

(** Matching a request path, given by its pieces (the path [a/b/] is
    [["a"; "b"]]), against a route: the keyword arguments captured, or
    [None]. *)
Fixpoint match_route (route : list Segment) (include : bool) (path : list string)
    : option (list (string * string)) :=
  match route, path with
  | [], [] => Some []
  | [], _ :: _ => if include then Some [] else None
  | Literal text :: route', piece :: path' =>
      if String.eqb text piece then match_route route' include path' else None
  | StrParam name :: route', piece :: path' =>
      if String.eqb piece "" then None
      else match match_route route' include path' with
           | Some kwargs => Some ((name, piece) :: kwargs)
           | None => None
           end
  | _ :: _, [] => None
  end.

(** The resolver: the first pattern that matches, in the order of the
    list. *)
Fixpoint resolve (patterns : list Pattern) (path : list string)
    : option (Target * list (string * string)) :=
  match patterns with
  | [] => None
  | pattern :: patterns' =>
      match match_route (route pattern) (include pattern) path with
      | Some kwargs => Some (target pattern, kwargs)
      | None => resolve patterns' path
      end
  end.

End Urls.

(** ** apps/tasks/models.py: the methods of the models *)

(** The truth value of an object: [None], [False], zero and the empty
    string are false, any other object (a date, a datetime) is true. *)
Definition truthy (v : pyobj) : bool :=
  match v with
  | ONone => false
  | OBool b => b
  | OInt n => negb (n =? 0)
  | OFloat repr => negb (String.eqb repr "0.0" || String.eqb repr "-0.0")
  | OStr s => negb (String.eqb s "")
  | OObject _ _ => true
  end.

(** An attribute of an instance; a missing one reads as [None]. *)
Definition getattr (instance : Instance) (name : string) : pyobj :=
  default ONone (instance !! name).

(** [Task.save] up to its call of [super().save()]: [completed_at] is set
    to the time of the call when the status is [done] and it is not set,
    and cleared when the status is not [done]. *)
Definition Task_save_hook (now : pyobj) (instance : Instance) : Instance :=
  if obj_eqb (getattr instance "status") (OStr "done")
     && negb (truthy (getattr instance "completed_at"))
  then setattr instance "completed_at" now
  else if negb (obj_eqb (getattr instance "status") (OStr "done"))
       then setattr instance "completed_at" ONone
       else instance.

(** [Project.clean] on the two dates it reads, each [None] or a date given
    by its ordinal. *)
Definition Project_clean (start_date deadline : option Z) : outcome unit :=
  match start_date, deadline with
  | Some start_date, Some deadline =>
      if deadline <? start_date
      then Raise (ValidationError
                    {["deadline" := ["Deadline must be after start date"]]})
      else Return tt
  | _, _ => Return tt
  end.

(** [Project.status]:
    [models.CharField(max_length=20, choices=STATUS_CHOICES, default='planning', ...)] *)
Definition Project_STATUS_CHOICES : list (pyobj * pyobj) :=
  [(OStr "planning", OStr "Planning"); (OStr "active", OStr "Active");
   (OStr "on_hold", OStr "On Hold"); (OStr "completed", OStr "Completed");
   (OStr "archived", OStr "Archived")].

Definition Project_status : Field :=
  {| field_class_name := "CharField";
     field_relation := None;
     field_name := "status";
     field_null := false;
     field_blank := false;
     field_default := Some (OStr "planning");
     field_empty_strings_allowed := true;
     field_verbose_name := Some "status";
     field_help_text := "Current project status";
     field_max_length := Some (Some 20);
     field_choices := Some (Some Project_STATUS_CHOICES);
     field_max_digits := None;
     field_decimal_places := None;
     field_unique := Some false;
     field_auto_created := false;
     field_concrete := true |}.

(** A second model named [Tag], of another application. *)
Definition blog_Tag : Model :=
  {| model_name := "Tag";
     meta_app_label := "blog";
     meta_db_table := "blog_tag";
     meta_verbose_name := "tag";
     meta_verbose_name_plural := "tags";
     meta_abstract := false;
     meta_get_fields := [auto_id] |}.

(** A string without an upper-case ASCII letter. *)
Fixpoint no_upper (s : string) : bool :=
  match s with
  | EmptyString => true
  | String c s' => negb (is_upper c) && no_upper s'
  end.

(** * Properties of the schema introspector *)

(** Splits [get_field_schema field] along the tests it makes: on the
    relation and on each probed attribute. *)
Ltac schema_cases field :=
  unfold get_field_schema, dict_update;
  destruct (field_relation field) as [[kind related_model]|] eqn:Hrelation;
  [| destruct (field_max_length field) as [max_length|] eqn:Hmax_length;
     [destruct (truthy_int max_length) eqn:Htruthy|];
     (destruct (field_choices field) as [[choices|]|];
      [destruct (truthy_list (Some choices))| |]);
     destruct (field_max_digits field);
     destruct (field_decimal_places field);
     destruct (field_unique field)].

(** Reads one key of the dict a case of [schema_cases] leaves. *)
Ltac schema_lookup :=
  simpl; try rewrite lookup_union_r by (by simplify_map_eq); by simplify_map_eq.

Lemma schema_name field :
  get_field_schema field !! "name" = Some (PStr (field_name field)).
Proof. schema_cases field; schema_lookup. Qed.

Lemma schema_required field :
  get_field_schema field !! "required"
  = Some (PBool (negb (field_null field) && negb (field_blank field)
                 && negb (has_default field))).
Proof. schema_cases field; schema_lookup. Qed.

Lemma schema_default field :
  field_relation field = None ->
  get_field_schema field !! "default" = Some (default_entry field).
Proof. intros Hscalar. schema_cases field; try discriminate; schema_lookup. Qed.

(** The loop of [get_model_schema] keeps, in order, the schema of every
    field that is not a reverse relation. *)
Lemma fields_schema_loop (fields : list Field) (acc : list (gmap string pyval)) :
  foldl (fun fields_schema field =>
           if is_reverse_relation field then fields_schema
           else (fields_schema ++ [get_field_schema field])%list)
        acc fields
  = (acc ++ (get_field_schema <$>
             filter (fun field => is_reverse_relation field = false) fields))%list.
Proof.
  revert acc. induction fields as [|field fields IH]; intros acc; simpl.
  - by rewrite app_nil_r.
  - rewrite IH, filter_cons.
    destruct (is_reverse_relation field); case_decide; try congruence.
    rewrite fmap_cons. by rewrite <- app_assoc.
Qed.

Lemma omap_PDict (entries : list (gmap string pyval)) :
  omap (fun entry => match entry with PDict d => Some d | _ => None end)
       (PDict <$> entries) = entries.
Proof.
  induction entries as [|entry entries IH]; [done|].
  simpl. f_equal. exact IH.
Qed.

Lemma schema_fields_get_model_schema (model_class : Model) :
  schema_fields (get_model_schema model_class)
  = get_field_schema <$>
      filter (fun field => is_reverse_relation field = false)
             (meta_get_fields model_class).
Proof.
  unfold schema_fields, get_model_schema. simpl.
  rewrite fields_schema_loop. simplify_map_eq. apply omap_PDict.
Qed.

(** What the loop of [get_all_models_schema] adds to [schemas]. *)
Lemma all_models_loop (models : list Model) (schemas : gmap string (gmap string pyval))
    (name : string) (schema : gmap string pyval) :
  foldl (fun schemas model =>
           if meta_abstract model then schemas
           else if bool_decide (meta_app_label model ∈ builtin_apps) then schemas
           else <[model_name model := get_model_schema model]> schemas)
        schemas models !! name = Some schema ->
  schemas !! name = Some schema \/
  exists model, model ∈ models /\ model_name model = name
    /\ schema = get_model_schema model
    /\ meta_abstract model = false
    /\ (meta_app_label model ∉ builtin_apps).
Proof.
  revert schemas. induction models as [|model models IH]; intros schemas; simpl.
  - auto.
  - intros Hfound. apply IH in Hfound as [Hfound | (m & Hin & Hrest)].
    + destruct (meta_abstract model) eqn:Habstract; [auto|].
      case_bool_decide as Hbuiltin; [auto|].
      apply lookup_insert_Some in Hfound as [[<- <-] | [_ Hfound]]; [|auto].
      right. exists model. repeat split; [apply elem_of_cons; auto | done..].
    + right. exists m. split; [apply elem_of_cons; auto | done].
Qed.

Lemma get_all_models_schema_sound (apps_get_models : list Model)
    (app_label : option string) (name : string) (schema : gmap string pyval) :
  get_all_models_schema apps_get_models app_label !! name = Some schema ->
  exists model, model ∈ apps_get_models /\ model_name model = name
    /\ schema = get_model_schema model
    /\ meta_abstract model = false
    /\ (meta_app_label model ∉ builtin_apps).
Proof.
  unfold get_all_models_schema. intros Hfound.
  apply all_models_loop in Hfound as [Hempty | (model & Hin & Hrest)].
  { by rewrite lookup_empty in Hempty. }
  exists model. split; [|done].
  destruct app_label as [label|]; [|done].
  destruct (negb (label =? "")%string); [|done].
  by apply list_elem_of_filter in Hin as [_ Hin].
Qed.

(** C1: the [required] entry of every field schema is
    [not null and not blank and not has_default()] of its field; so it is
    for each entry of the field list of a model's schema document, and for
    each entry of each document [get_all_models_schema] returns. *)
Theorem required_is_derived (field : Field) (model_class : Model)
    (apps_get_models : list Model) (app_label : option string) :
  get_field_schema field !! "required" = Some (PBool (derived_required field))
  /\ Forall2 (fun field entry =>
                entry = get_field_schema field
                /\ entry !! "required" = Some (PBool (derived_required field)))
             (filter (fun field => is_reverse_relation field = false)
                     (meta_get_fields model_class))
             (schema_fields (get_model_schema model_class))
  /\ map_Forall (fun _ schema =>
                   Forall (fun entry =>
                             exists field, entry = get_field_schema field
                               /\ entry !! "required"
                                  = Some (PBool (derived_required field)))
                          (schema_fields schema))
                (get_all_models_schema apps_get_models app_label).
Proof.
  split; [apply schema_required|]. split.
  - rewrite schema_fields_get_model_schema.
    apply Forall2_fmap_r, Forall_Forall2_diag, Forall_forall.
    intros f _. split; [reflexivity | apply schema_required].
  - intros name schema Hfound.
    apply get_all_models_schema_sound in Hfound as (model & _ & _ & -> & _).
    rewrite schema_fields_get_model_schema.
    apply Forall_fmap, Forall_forall. intros f _. exists f.
    split; [reflexivity | apply schema_required].
Qed.

(** The [default] entry for a declared default, by what the default is:
    a callable default is called by [get_default()], and it is the value
    of that call the three branches of the code see. *)
Lemma default_entry_declared (field : Field) (default : pyobj) :
  field_default field = Some default ->
  default_entry field =
    match default with
    | OObject _ (Some returned) =>
        if callable returned then PNone
        else if isinstance_primitive returned then PObj returned
        else PStr (py_str returned)
    | OObject str_form None => PStr str_form
    | primitive => PObj primitive
    end.
Proof.
  intros Hdefault. unfold default_entry, has_default, get_default.
  rewrite Hdefault. by destruct default as [| | | | |str_form [returned|]].
Qed.

(** C3, at [TeamMember.joined_at] ([default=timezone.now]): the declared
    default is a callable, and the schema reports the [str()] form of the
    datetime a call returned, not null. *)
Theorem joined_at_default_is_not_null (now : string) :
  (exists default, field_default (TeamMember_joined_at now) = Some default
                   /\ callable default = true)
  /\ field_relation (TeamMember_joined_at now) = None
  /\ get_field_schema (TeamMember_joined_at now) !! "default" = Some (PStr now)
  /\ get_field_schema (TeamMember_joined_at now) !! "default" <> Some PNone.
Proof.
  assert (Hentry : get_field_schema (TeamMember_joined_at now) !! "default"
                   = Some (PStr now)).
  { rewrite schema_default by reflexivity.
    by rewrite (default_entry_declared _ (timezone_now now)). }
  split; [by exists (timezone_now now)|].
  split; [reflexivity|]. split; [exact Hentry|].
  rewrite Hentry. discriminate.
Qed.

(** C6: a schema [get_all_models_schema] returns, under whichever name
    and for whichever [app_label] argument, is the schema of a registered
    model that is not abstract and whose application is none of [auth],
    [contenttypes], [sessions], [admin]. *)
Theorem all_models_schema_excludes_builtin (apps_get_models : list Model)
    (app_label : option string) (name : string) (schema : gmap string pyval) :
  get_all_models_schema apps_get_models app_label !! name = Some schema ->
  exists model, model ∈ apps_get_models
    /\ model_name model = name
    /\ schema = get_model_schema model
    /\ meta_abstract model = false
    /\ (meta_app_label model ∉ builtin_apps)
    /\ schema !! "app_label" = Some (PStr (meta_app_label model)).
Proof.
  intros Hfound.
  destruct (get_all_models_schema_sound _ _ _ _ Hfound)
    as (model & Hin & Hname & -> & Habstract & Hbuiltin).
  exists model. split; [exact Hin|]. split; [exact Hname|].
  split; [reflexivity|]. split; [exact Habstract|]. split; [exact Hbuiltin|].
  unfold get_model_schema. by simplify_map_eq.
Qed.

Lemma all_models_schema_excludes_builtin_witness :
  get_all_models_schema [Tag; auth_Group] None !! "Tag" = Some (get_model_schema Tag)
  /\ exists model, model ∈ [Tag; auth_Group]
       /\ model_name model = "Tag"
       /\ get_model_schema Tag = get_model_schema model
       /\ meta_abstract model = false
       /\ (meta_app_label model ∉ builtin_apps)
       /\ get_model_schema Tag !! "app_label" = Some (PStr (meta_app_label model)).
Proof.
  assert (Hfound : get_all_models_schema [Tag; auth_Group] None !! "Tag"
                   = Some (get_model_schema Tag)) by (vm_compute; reflexivity).
  split; [exact Hfound|].
  exact (all_models_schema_excludes_builtin [Tag; auth_Group] None "Tag"
           (get_model_schema Tag) Hfound).
Defined.

(** Asking for the [auth] application by name returns nothing. *)
Example all_models_schema_of_auth :
  get_all_models_schema [Tag; auth_Group] (Some "auth") = ∅.
Proof. vm_compute. reflexivity. Qed.

(** C7: the schema of a relationship field carries the related model's
    name and a [many] flag that is true exactly for a [ManyToManyField],
    and has no [max_length], [choices], [max_digits] or [decimal_places]
    entry. *)
Theorem relationship_field_schema (field : Field) (kind : RelationKind)
    (related_model : string) :
  field_relation field = Some (kind, related_model) ->
  get_field_schema field !! "related_model" = Some (PStr related_model)
  /\ (exists many, get_field_schema field !! "many" = Some (PBool many)
                   /\ (many = true <-> kind = ManyToManyField))
  /\ get_field_schema field !! "max_length" = None
  /\ get_field_schema field !! "choices" = None
  /\ get_field_schema field !! "max_digits" = None
  /\ get_field_schema field !! "decimal_places" = None.
Proof.
  intros Hrelation. unfold get_field_schema, dict_update. rewrite Hrelation.
  split; [by simplify_map_eq|]. split.
  - exists (match kind with ManyToManyField => true | _ => false end).
    split; [by simplify_map_eq|]. by destruct kind.
  - repeat split; apply lookup_union_None; by simplify_map_eq.
Qed.

Lemma relationship_field_schema_witness :
  field_relation Task_tags = Some (ManyToManyField, "Tag")
  /\ get_field_schema Task_tags !! "related_model" = Some (PStr "Tag")
  /\ (exists many, get_field_schema Task_tags !! "many" = Some (PBool many)
                   /\ (many = true <-> ManyToManyField = ManyToManyField))
  /\ get_field_schema Task_tags !! "max_length" = None
  /\ get_field_schema Task_tags !! "choices" = None
  /\ get_field_schema Task_tags !! "max_digits" = None
  /\ get_field_schema Task_tags !! "decimal_places" = None.
Proof.
  split; [reflexivity|].
  exact (relationship_field_schema Task_tags ManyToManyField "Tag" eq_refl).
Defined.

(** The flag is false for the two to-one kinds. *)
Example project_is_not_many :
  get_field_schema Task_project !! "many" = Some (PBool false)
  /\ get_field_schema Task_project !! "related_model" = Some (PStr "Project").
Proof. split; vm_compute; reflexivity. Qed.

(** Field names are unique within a model, so the name identifies the
    field. *)
Lemma field_of_name (fields : list Field) (f g : Field) :
  NoDup (field_name <$> fields) ->
  f ∈ fields -> g ∈ fields -> field_name f = field_name g -> f = g.
Proof.
  induction fields as [|h fields IH]; intros Hnodup Hf Hg Hname.
  - by apply elem_of_nil in Hf.
  - rewrite fmap_cons in Hnodup. apply NoDup_cons in Hnodup as [Hfresh Hnodup].
    apply elem_of_cons in Hf as [-> | Hf]; apply elem_of_cons in Hg as [-> | Hg].
    + reflexivity.
    + exfalso. apply Hfresh. rewrite Hname. by apply list_elem_of_fmap_2.
    + exfalso. apply Hfresh. rewrite <- Hname. by apply list_elem_of_fmap_2.
    + by apply IH.
Qed.

(** C8: the field list of a schema document is, in order, the schema of
    each field of [get_fields()] that is not an automatically created
    field without a column; so every field the model declares, and every
    field with a column, has its entry, and (field names being unique
    within the model) no entry carries the name of a reverse relation. *)
Theorem schema_lists_forward_fields (model_class : Model) :
  schema_fields (get_model_schema model_class)
  = get_field_schema <$>
      filter (fun field => is_reverse_relation field = false)
             (meta_get_fields model_class)
  /\ (forall field, field ∈ meta_get_fields model_class ->
        field_auto_created field = false \/ field_concrete field = true ->
        get_field_schema field ∈ schema_fields (get_model_schema model_class))
  /\ (NoDup (field_name <$> meta_get_fields model_class) ->
      forall field, field ∈ meta_get_fields model_class ->
        field_auto_created field = true -> field_concrete field = false ->
        forall entry, entry ∈ schema_fields (get_model_schema model_class) ->
          entry !! "name" <> Some (PStr (field_name field))).
Proof.
  rewrite schema_fields_get_model_schema. split; [reflexivity|]. split.
  - intros field Hin Hforward. apply list_elem_of_fmap_2, list_elem_of_filter.
    split; [|exact Hin]. unfold is_reverse_relation.
    destruct Hforward as [-> | ->]; [reflexivity | apply andb_false_r].
  - intros Hnodup field Hin Hauto Hcolumn entry Hentry Hname.
    apply list_elem_of_fmap in Hentry as (kept & -> & Hkept).
    apply list_elem_of_filter in Hkept as [Hforward Hkept].
    rewrite schema_name in Hname. unfold PStr in Hname.
    assert (kept = field) as ->
      by (apply (field_of_name _ _ _ Hnodup); [exact Hkept | exact Hin | congruence]).
    unfold is_reverse_relation in Hforward.
    rewrite Hauto, Hcolumn in Hforward. discriminate.
Qed.

Lemma Tag_field_names_unique : NoDup (field_name <$> meta_get_fields Tag).
Proof. apply (bool_decide_unpack _). by vm_compute. Qed.

Lemma schema_lists_forward_fields_witness :
  length (schema_fields (get_model_schema Tag)) = 4%nat
  /\ get_field_schema Tag_name ∈ schema_fields (get_model_schema Tag)
  /\ (forall entry, entry ∈ schema_fields (get_model_schema Tag) ->
        entry !! "name" <> Some (PStr "tasks")).
Proof.
  destruct (schema_lists_forward_fields Tag) as (Hfields & Hforward & Hreverse).
  split; [by rewrite Hfields|]. split.
  - apply Hforward; [|by left].
    do 2 (apply elem_of_cons; right). apply elem_of_cons. by left.
  - apply (Hreverse Tag_field_names_unique
             (reverse_relation "ManyToManyRel" "tasks"));
      [apply elem_of_cons; by left | reflexivity | reflexivity].
Defined.

(** C9: without an allow-list every name is allowed; with one, a name is
    allowed exactly when it is an element of the list. *)
Theorem model_access_is_membership (model_name : string) (allowed : list string) :
  validate_model_access model_name None = true
  /\ (validate_model_access model_name (Some allowed) = true <-> model_name ∈ allowed)
  /\ validate_model_access "task" (Some ["Task"]) = false
  /\ validate_model_access "Task" (Some ["*"; "T*"; "Tas?"]) = false
  /\ validate_model_access model_name (Some []) = false.
Proof.
  split; [reflexivity|]. split.
  - unfold validate_model_access. apply bool_decide_eq_true.
  - repeat split; unfold validate_model_access; apply bool_decide_eq_false;
      set_solver.
Qed.

(** C10: the keys of a field schema.  [name], [type], [required],
    [label] and [help_text] are always there; a field that is not a
    relationship always has [default], which is null when it declares no
    default; a relationship has none of [default], [max_length],
    [choices], [unique], [max_digits], [decimal_places]; and [max_length]
    is there for a scalar field only with the field's own value, which is
    then neither null nor zero. *)
Theorem field_schema_keys (field : Field) :
  (is_Some (get_field_schema field !! "name")
   /\ is_Some (get_field_schema field !! "type")
   /\ is_Some (get_field_schema field !! "required")
   /\ is_Some (get_field_schema field !! "label")
   /\ is_Some (get_field_schema field !! "help_text"))
  /\ (field_relation field = None ->
      is_Some (get_field_schema field !! "default")
      /\ (has_default field = false ->
          get_field_schema field !! "default" = Some PNone))
  /\ (is_Some (field_relation field) ->
      get_field_schema field !! "default" = None
      /\ get_field_schema field !! "max_length" = None
      /\ get_field_schema field !! "choices" = None
      /\ get_field_schema field !! "unique" = None
      /\ get_field_schema field !! "max_digits" = None
      /\ get_field_schema field !! "decimal_places" = None)
  /\ (field_relation field = None ->
      forall value, get_field_schema field !! "max_length" = Some value ->
        exists n, field_max_length field = Some (Some n)
                  /\ n <> 0 /\ value = PInt n).
Proof.
  split; [|split; [|split]].
  - repeat split; schema_cases field; eexists; schema_lookup.
  - intros Hscalar. rewrite schema_default by exact Hscalar.
    split; [by eexists|]. intros Hnone. unfold default_entry. by rewrite Hnone.
  - intros [[kind related_model] Hrelation].
    unfold get_field_schema, dict_update. rewrite Hrelation.
    repeat split; apply lookup_union_None; by simplify_map_eq.
  - intros Hscalar value.
    schema_cases field; try discriminate; simpl; intros Hvalue;
      simplify_map_eq;
      destruct max_length as [n|]; try discriminate;
      exists n; (split; [reflexivity|]); (split; [|reflexivity]);
      intros ->; discriminate.
Qed.

(** A zero or null [max_length] leaves no entry; [Tag.name] has one. *)
Example max_length_entries :
  get_field_schema Tag_name !! "max_length" = Some (PInt 50)
  /\ get_field_schema Tag_created_at !! "max_length" = None
  /\ get_field_schema Tag_created_at !! "default" = Some PNone
  /\ get_field_schema Task_project !! "default" = None.
Proof. repeat split; vm_compute; reflexivity. Qed.

(** * Properties of the paginator *)

Section Pagination.
Context {A : Type}.
Implicit Types (object_list : list A) (per_page number : Z).













End Pagination.

(** * Properties of the repository *)



(** The example of the specification: page 5 of three rows at fifty rows a
    page is the three rows, as page 5 of 1. *)
Example page_five_of_three_rows :
  Repository.get_all (model_class := Tag_class ONone) None None 5 50 three_tags
  = (Return (Repository.mkPageResult tags_by_name 5 1 3), three_tags).
Proof. vm_compute. reflexivity. Qed.

(** An empty table gives one empty page, whatever the page number. *)
Example page_of_no_rows :
  Repository.get_all (model_class := Tag_class ONone) None None 3 50 ∅
  = (Return (Repository.mkPageResult [] 3 1 0), ∅).
Proof. vm_compute. reflexivity. Qed.



(** What [delete] does on any table: it answers whether the record was
    there, and leaves the table without it. *)
Lemma delete_outcome (db : Table) (id : Z) :
  Repository.delete id db
  = (Return (bool_decide (is_Some (db !! id))), delete id db).
Proof.
  unfold Repository.delete, mbind, M_mbind, M_bind,
    Repository.get_by_id, Repository.objects_get.
  destruct (db !! id) as [row|] eqn:Hrow.
  - unfold Repository.instance_delete, pk_of.
    rewrite lookup_insert_eq. rewrite bool_decide_eq_true_2 by eauto.
    reflexivity.
  - rewrite delete_id by exact Hrow.
    rewrite bool_decide_eq_false_2 by (intros [row Hsome]; discriminate).
    reflexivity.
Qed.

(** C5: for an id that is not in the table, [get_by_id] returns [None],
    [update] returns [None] and [delete] returns [False], each leaving the
    table as it was and none raising; and whatever a first [delete] of an
    id found, a second one returns [False]. *)
Theorem missing_record_is_a_value {model_class : ModelClass}
    (db : Table) (id : Z) (data : list (string * pyobj)) :
  (db !! id = None ->
     Repository.get_by_id id db = (Return None, db)
     /\ Repository.update id data db = (Return None, db)
     /\ Repository.delete id db = (Return false, db))
  /\ Repository.delete id (snd (Repository.delete id db))
     = (Return false, snd (Repository.delete id db)).
Proof.
  split.
  - intros Hmissing.
    assert (Hget : Repository.get_by_id id db = (Return None, db))
      by (unfold Repository.get_by_id, Repository.objects_get; by rewrite Hmissing).
    split; [exact Hget|]. split.
    + unfold Repository.update, mbind, M_mbind, M_bind. by rewrite Hget.
    + unfold Repository.delete, mbind, M_mbind, M_bind. by rewrite Hget.
  - rewrite (delete_outcome db id). simpl. rewrite delete_outcome.
    rewrite lookup_delete_eq, delete_delete_eq.
    rewrite bool_decide_eq_false_2 by (intros [row Hsome]; discriminate).
    reflexivity.
Qed.

Lemma missing_record_is_a_value_witness :
  three_tags !! 7 = None
  /\ Repository.get_by_id 7 three_tags = (Return None, three_tags)
  /\ Repository.update (model_class := Tag_class ONone) 7 [("name", OStr "ops")]
       three_tags = (Return None, three_tags)
  /\ Repository.delete 7 three_tags = (Return false, three_tags)
  /\ Repository.delete 2 (snd (Repository.delete 2 three_tags))
     = (Return false, snd (Repository.delete 2 three_tags)).
Proof.
  assert (Hmissing : three_tags !! 7 = None) by (vm_compute; reflexivity).
  destruct (proj1 (missing_record_is_a_value (model_class := Tag_class ONone)
                     three_tags 7 [("name", OStr "ops")]) Hmissing)
    as (Hget & Hupdate & Hdelete).
  split; [exact Hmissing|]. split; [exact Hget|]. split; [exact Hupdate|].
  split; [exact Hdelete|].
  exact (proj2 (missing_record_is_a_value (model_class := Tag_class ONone)
                  three_tags 2 [])).
Defined.

(** A first [delete] of a stored tag returns [True] and removes it. *)
Example delete_then_get :
  fst (Repository.delete 2 three_tags) = Return true
  /\ fst (Repository.get_by_id 2 (snd (Repository.delete 2 three_tags)))
     = Return None.
Proof. split; vm_compute; reflexivity. Qed.

(** * Further properties of the schema introspector *)

Lemma to_lower_not_upper (c : ascii) : is_upper (to_lower c) = false.
Proof. destruct c as [[] [] [] [] [] [] [] []]; reflexivity. Qed.

Lemma no_upper_lower (s : string) : no_upper (lower s) = true.
Proof.
  induction s as [|c s IH]; [reflexivity|].
  simpl. rewrite to_lower_not_upper. exact IH.
Qed.

Lemma type_mapping_values_lower :
  map_Forall (fun _ mapped => no_upper mapped = true) type_mapping.
Proof. apply (bool_decide_unpack _). by vm_compute. Qed.

Lemma schema_type field :
  get_field_schema field !! "type" = Some (PStr (get_field_type field)).
Proof. schema_cases field; schema_lookup. Qed.

(** X1: the [type] entry of a field schema is the name the table gives
    the field's class, or the lower-cased class name when the table has
    none; in both cases it holds no upper-case ASCII letter. *)
Theorem field_type_is_lower_case (field : Field) :
  get_field_schema field !! "type" = Some (PStr (get_field_type field))
  /\ (forall mapped, type_mapping !! field_class_name field = Some mapped ->
        get_field_type field = mapped)
  /\ (type_mapping !! field_class_name field = None ->
        get_field_type field = lower (field_class_name field))
  /\ no_upper (get_field_type field) = true.
Proof.
  split; [apply schema_type|]. unfold get_field_type.
  destruct (type_mapping !! field_class_name field) as [mapped|] eqn:Hmapped; simpl.
  - split; [by intros ? [= <-]|]. split; [discriminate|].
    exact (type_mapping_values_lower _ _ Hmapped).
  - split; [discriminate|]. split; [reflexivity|]. apply no_upper_lower.
Qed.

(** A class the table does not know degrades to its lower-cased name. *)
Example type_of_unmapped_class :
  get_field_type (declared_field "DurationField" "elapsed" "" false false None None false)
  = "durationfield"
  /\ get_field_type Tag_name = "string".
Proof. split; vm_compute; reflexivity. Qed.

(** X2: a scalar field with a non-empty list of choices gets a [choices]
    entry with one dict per choice, in order, each holding the pair as
    [value] and [label] and nothing else; without choices, or with an
    empty list, there is no such entry. *)
Theorem choices_entry_of_field (field : Field) :
  field_relation field = None ->
  (forall choices, field_choices field = Some (Some choices) -> choices <> [] ->
     exists entries,
       get_field_schema field !! "choices" = Some (PList entries)
       /\ length entries = length choices
       /\ forall i choice, choices !! i = Some choice ->
            exists entry, entries !! i = Some (PDict entry)
              /\ entry !! "value" = Some (PObj (fst choice))
              /\ entry !! "label" = Some (PObj (snd choice))
              /\ dom entry = {["value"; "label"]})
  /\ (field_choices field = None \/ field_choices field = Some None
      \/ field_choices field = Some (Some []) ->
      get_field_schema field !! "choices" = None).
Proof.
  intros Hscalar. split.
  - intros choices Hchoices Hnonempty.
    exists (map (fun choice =>
                   PDict (list_to_map [("value", PObj (fst choice));
                                       ("label", PObj (snd choice))]))
                choices).
    split; [|split].
    + unfold get_field_schema, dict_update. rewrite Hscalar, Hchoices.
      destruct choices as [|choice choices]; [done|].
      destruct (field_max_length field) as [max_length|];
        [destruct (truthy_int max_length)|];
        destruct (field_max_digits field);
        destruct (field_decimal_places field);
        destruct (field_unique field); by simplify_map_eq.
    + apply length_map.
    + intros i choice Hi. eexists. split.
      * change (map ?f choices) with (f <$> choices).
        rewrite list_lookup_fmap, Hi. reflexivity.
      * split; [by simplify_map_eq|]. split; [by simplify_map_eq|].
        simpl. rewrite !dom_insert_L, dom_empty_L. set_solver.
  - intros Hnone. unfold get_field_schema, dict_update. rewrite Hscalar.
    destruct Hnone as [-> | [-> | ->]];
      destruct (field_max_length field) as [max_length|];
      try destruct (truthy_int max_length);
      destruct (field_max_digits field);
      destruct (field_decimal_places field);
      destruct (field_unique field); by simplify_map_eq.
Qed.

Lemma choices_entry_of_field_witness :
  field_relation Project_status = None
  /\ exists entries,
       get_field_schema Project_status !! "choices" = Some (PList entries)
       /\ length entries = 5%nat
       /\ forall i choice, Project_STATUS_CHOICES !! i = Some choice ->
            exists entry, entries !! i = Some (PDict entry)
              /\ entry !! "value" = Some (PObj (fst choice))
              /\ entry !! "label" = Some (PObj (snd choice))
              /\ dom entry = {["value"; "label"]}.
Proof.
  split; [reflexivity|].
  exact (proj1 (choices_entry_of_field Project_status eq_refl)
           Project_STATUS_CHOICES eq_refl ltac:(discriminate)).
Defined.

(** X3: on a scalar field, [max_digits], [decimal_places] and [unique]
    are reported whenever the field object has the attribute, with the
    attribute's value as it is (a null [max_digits] is reported as null),
    and are absent otherwise. *)
Theorem constraint_entries_follow_attributes (field : Field) :
  field_relation field = None ->
  get_field_schema field !! "max_digits"
  = of_optional_int <$> field_max_digits field
  /\ get_field_schema field !! "decimal_places"
     = of_optional_int <$> field_decimal_places field
  /\ get_field_schema field !! "unique" = PBool <$> field_unique field.
Proof.
  intros Hscalar.
  repeat split; schema_cases field; try discriminate; schema_lookup.
Qed.

Lemma constraint_entries_follow_attributes_witness :
  field_relation Tag_name = None
  /\ get_field_schema Tag_name !! "max_digits" = None
  /\ get_field_schema Tag_name !! "decimal_places" = None
  /\ get_field_schema Tag_name !! "unique" = Some (PBool true).
Proof.
  split; [reflexivity|].
  exact (constraint_entries_follow_attributes Tag_name eq_refl).
Defined.

(** The loop of [get_all_models_schema] leaves a name alone that no
    model of the list carries. *)
Lemma all_models_loop_other (models : list Model)
    (schemas : gmap string (gmap string pyval)) (name : string) :
  (forall other, other ∈ models -> model_name other <> name) ->
  foldl (fun schemas model =>
           if meta_abstract model then schemas
           else if bool_decide (meta_app_label model ∈ builtin_apps) then schemas
           else <[model_name model := get_model_schema model]> schemas)
        schemas models !! name = schemas !! name.
Proof.
  revert schemas. induction models as [|model models IH]; intros schemas Hother.
  - reflexivity.
  - simpl. rewrite IH by (intros other Hin; apply Hother, elem_of_cons; auto).
    destruct (meta_abstract model); [reflexivity|].
    case_bool_decide; [reflexivity|].
    apply lookup_insert_ne, Hother, elem_of_cons. auto.
Qed.

(** X4: a registered model that is not abstract, is of none of the
    built-in applications and passes the application filter has its schema
    in the result of [get_all_models_schema] under its class name,
    provided no model registered after it has the same class name. *)
Theorem all_models_schema_complete (apps_get_models before after : list Model)
    (model : Model) (app_label : option string) :
  apps_get_models = (before ++ model :: after)%list ->
  meta_abstract model = false ->
  meta_app_label model ∉ builtin_apps ->
  (forall label, app_label = Some label -> label <> "" ->
     meta_app_label model = label) ->
  (forall other, other ∈ after -> model_name other <> model_name model) ->
  get_all_models_schema apps_get_models app_label !! model_name model
  = Some (get_model_schema model).
Proof.
  intros -> Hconcrete Hbuiltin Hlabel Hlater. unfold get_all_models_schema.
  set (step := fun schemas model =>
           if meta_abstract model then schemas
           else if bool_decide (meta_app_label model ∈ builtin_apps) then schemas
           else <[model_name model := get_model_schema model]> schemas).
  assert (Hstep : forall models' before' after',
            models' = (before' ++ model :: after')%list ->
            (forall other, other ∈ after' -> model_name other <> model_name model) ->
            foldl step ∅ models' !! model_name model
            = Some (get_model_schema model)).
  { intros models' before' after' -> Hafter.
    rewrite foldl_app. simpl.
    unfold step at 2. rewrite Hconcrete.
    rewrite bool_decide_eq_false_2 by exact Hbuiltin.
    unfold step. rewrite all_models_loop_other by exact Hafter.
    apply lookup_insert_eq. }
  destruct app_label as [label|]; [|by eapply Hstep].
  destruct (String.eqb_spec label "") as [->|Hnonempty]; simpl;
    [by eapply Hstep|].
  rewrite filter_app, filter_cons_True by (by apply Hlabel).
  eapply Hstep; [reflexivity|].
  intros other Hin. apply list_elem_of_filter in Hin as [_ Hin]. by apply Hlater.
Qed.

Lemma all_models_schema_complete_witness :
  get_all_models_schema [blog_Tag; auth_Group; Tag] (Some "tasks") !! "Tag"
  = Some (get_model_schema Tag)
  /\ get_all_models_schema [blog_Tag; auth_Group; Tag] None !! "Tag"
     = Some (get_model_schema Tag).
Proof.
  split.
  - apply (all_models_schema_complete _ [blog_Tag; auth_Group] [] Tag (Some "tasks"));
      [reflexivity | reflexivity | by apply (bool_decide_unpack _)
      | by intros label [= <-] | by intros other ?%elem_of_nil].
  - apply (all_models_schema_complete _ [blog_Tag; auth_Group] [] Tag None);
      [reflexivity | reflexivity | by apply (bool_decide_unpack _)
      | discriminate | by intros other ?%elem_of_nil].
Defined.

(** X5: with a non-empty [app_label] every document returned is of that
    application; an empty [app_label] filters nothing, like [None]. *)
Theorem all_models_schema_filter (apps_get_models : list Model) (label name : string)
    (schema : gmap string pyval) :
  label <> "" ->
  get_all_models_schema apps_get_models (Some label) !! name = Some schema ->
  schema !! "app_label" = Some (PStr label)
  /\ get_all_models_schema apps_get_models (Some "")
     = get_all_models_schema apps_get_models None.
Proof.
  intros Hnonempty Hfound. split; [|reflexivity].
  unfold get_all_models_schema in Hfound.
  destruct (String.eqb_spec label "") as [->|_]; [done|]. simpl in Hfound.
  apply all_models_loop in Hfound as [Hempty | (model & Hin & _ & -> & _)].
  { by rewrite lookup_empty in Hempty. }
  apply list_elem_of_filter in Hin as [<- _].
  unfold get_model_schema. by simplify_map_eq.
Qed.

Lemma all_models_schema_filter_witness :
  get_all_models_schema [blog_Tag; auth_Group; Tag] (Some "blog") !! "Tag"
  = Some (get_model_schema blog_Tag)
  /\ get_model_schema blog_Tag !! "app_label" = Some (PStr "blog")
  /\ get_all_models_schema [blog_Tag; auth_Group; Tag] (Some "")
     = get_all_models_schema [blog_Tag; auth_Group; Tag] None.
Proof.
  assert (Hfound : get_all_models_schema [blog_Tag; auth_Group; Tag] (Some "blog")
                   !! "Tag" = Some (get_model_schema blog_Tag))
    by (vm_compute; reflexivity).
  split; [exact Hfound|].
  exact (all_models_schema_filter [blog_Tag; auth_Group; Tag] "blog" "Tag"
           (get_model_schema blog_Tag) ltac:(discriminate) Hfound).
Defined.

Lemma get_model_by_name_sound (apps_get_models : list Model)
    (apps_get_model : string -> string -> option Model) (name : string)
    (model : Model) :
  get_model_by_name apps_get_models apps_get_model name None = Some model ->
  model ∈ apps_get_models /\ model_name model = name.
Proof.
  unfold get_model_by_name. intros Hfound.
  apply find_some in Hfound as [Hin Hname].
  split; [by apply list_elem_of_In | by apply bool_decide_eq_true in Hname].
Qed.

Lemma get_model_by_name_missing (apps_get_models : list Model)
    (apps_get_model : string -> string -> option Model) (name : string) :
  get_model_by_name apps_get_models apps_get_model name None = None <->
  forall model, model ∈ apps_get_models -> model_name model <> name.
Proof.
  unfold get_model_by_name. split.
  - intros Hnone model Hin Hname.
    apply list_elem_of_In in Hin.
    pose proof (find_none _ _ Hnone model Hin) as Hfalse.
    by apply bool_decide_eq_false in Hfalse.
  - intros Hnone.
    destruct (List.find _ apps_get_models) as [model|] eqn:Hfound; [|reflexivity].
    apply find_some in Hfound as [Hin Hname].
    apply bool_decide_eq_true in Hname. apply list_elem_of_In in Hin.
    by destruct (Hnone model Hin).
Qed.

(** X6: without an application label [get_model_by_name] returns the
    first registered class of that exact name, and [None], not an error,
    when there is none; an empty label counts as no label, and any other
    label defers to [apps.get_model]. *)
Theorem get_model_by_name_search (apps_get_models : list Model)
    (apps_get_model : string -> string -> option Model) (name : string) :
  (forall model,
     get_model_by_name apps_get_models apps_get_model name None = Some model ->
     model ∈ apps_get_models /\ model_name model = name)
  /\ (get_model_by_name apps_get_models apps_get_model name None = None <->
      forall model, model ∈ apps_get_models -> model_name model <> name)
  /\ (forall before model after,
        apps_get_models = (before ++ model :: after)%list ->
        model_name model = name ->
        (forall other, other ∈ before -> model_name other <> name) ->
        get_model_by_name apps_get_models apps_get_model name None = Some model)
  /\ get_model_by_name apps_get_models apps_get_model name (Some "")
     = get_model_by_name apps_get_models apps_get_model name None
  /\ (forall label, label <> "" ->
        get_model_by_name apps_get_models apps_get_model name (Some label)
        = apps_get_model label name).
Proof.
  split; [|split; [|split; [|split]]].
  - apply get_model_by_name_sound.
  - apply get_model_by_name_missing.
  - unfold get_model_by_name. intros before model after -> Hname Hbefore.
    induction before as [|other before IH]; simpl.
    + by rewrite bool_decide_eq_true_2.
    + rewrite bool_decide_eq_false_2
        by (apply Hbefore, elem_of_cons; auto).
      apply IH. intros other' Hin. apply Hbefore, elem_of_cons. auto.
  - reflexivity.
  - intros [|c label] Hnonempty; [done | reflexivity].
Qed.

(** The search is case-sensitive and takes the first of two classes that
    share a name. *)
Example get_model_by_name_examples :
  get_model_by_name [blog_Tag; auth_Group; Tag] (fun _ _ => None) "Tag" None
  = Some blog_Tag
  /\ get_model_by_name [blog_Tag; auth_Group; Tag] (fun _ _ => None) "tag" None
     = None.
Proof. split; reflexivity. Qed.

(** * Properties of the views and of the URL configuration *)

(** X7: [get_schema_view] answers a request that is not a GET with
    "method not allowed"; a GET for a name outside [ALLOWED_MODELS] with
    403, whatever the registry holds; a GET for an allowed name with 404
    when no class has that name and otherwise with 200 and the schema of
    the first class of that name.  A 200 answer is always for an allowed
    name. *)
Theorem get_schema_view_answers (apps_get_models : list Model)
    (apps_get_model : string -> string -> option Model)
    (request : Views.HttpRequest) (name : string) :
  (Views.method request <> "GET" ->
     Views.get_schema_view apps_get_models apps_get_model request name
     = Views.HttpResponseNotAllowed ["GET"])
  /\ (Views.method request = "GET" ->
      (name ∉ Views.ALLOWED_MODELS ->
         Views.get_schema_view apps_get_models apps_get_model request name
         = Views.JsonResponse
             {["error" := PStr ("Model " +:+ name +:+ " is not accessible")]} 403)
      /\ (name ∈ Views.ALLOWED_MODELS ->
          (forall model, model ∈ apps_get_models -> model_name model <> name) ->
          Views.get_schema_view apps_get_models apps_get_model request name
          = Views.JsonResponse
              {["error" := PStr ("Model " +:+ name +:+ " not found")]} 404)
      /\ (name ∈ Views.ALLOWED_MODELS ->
          forall model,
            get_model_by_name apps_get_models apps_get_model name None = Some model ->
            Views.get_schema_view apps_get_models apps_get_model request name
            = Views.JsonResponse (get_model_schema model) 200)
      /\ (forall data,
            Views.get_schema_view apps_get_models apps_get_model request name
            = Views.JsonResponse data 200 ->
            name ∈ Views.ALLOWED_MODELS
            /\ exists model, model ∈ apps_get_models /\ model_name model = name
                 /\ data = get_model_schema model)).
Proof.
  unfold Views.get_schema_view, Views.require_http_methods. split.
  - intros Hmethod. rewrite bool_decide_eq_false_2; [reflexivity|].
    intros Hin. apply list_elem_of_singleton in Hin. contradiction.
  - intros Hmethod.
    rewrite bool_decide_eq_true_2 by (rewrite Hmethod; apply list_elem_of_singleton; reflexivity).
    unfold validate_model_access.
    pose proof (get_model_by_name_sound apps_get_models apps_get_model name)
      as Hsound.
    pose proof (get_model_by_name_missing apps_get_models apps_get_model name)
      as Hnone.
    split; [|split; [|split]].
    + intros Hforbidden. by rewrite bool_decide_eq_false_2.
    + intros Hallowed Hmissing. rewrite bool_decide_eq_true_2 by exact Hallowed.
      apply Hnone in Hmissing. by rewrite Hmissing.
    + intros Hallowed model Hfound. rewrite bool_decide_eq_true_2 by exact Hallowed.
      by rewrite Hfound.
    + intros data Hresponse.
      case_bool_decide as Hallowed; cbn [negb] in Hresponse;
        [|discriminate Hresponse].
      destruct (get_model_by_name _ _ name None) as [model|] eqn:Hfound;
        [|discriminate Hresponse].
      injection Hresponse as <-. split; [exact Hallowed|].
      exists model.
      destruct (get_model_by_name_sound _ _ _ _ Hfound). auto.
Qed.

(** X8: a GET of [get_all_schemas_view] answers 200 with, for each name,
    the document [get_all_models_schema] holds under that name if the name
    is in [ALLOWED_MODELS], and nothing otherwise. *)
Theorem get_all_schemas_view_answers (apps_get_models : list Model)
    (request : Views.HttpRequest) :
  Views.method request = "GET" ->
  exists data,
    Views.get_all_schemas_view apps_get_models request = Views.JsonResponse data 200
    /\ forall name,
         data !! name
         = if bool_decide (name ∈ Views.ALLOWED_MODELS)
           then PDict <$> get_all_models_schema apps_get_models None !! name
           else None.
Proof.
  intros Hmethod. unfold Views.get_all_schemas_view, Views.require_http_methods.
  rewrite bool_decide_eq_true_2
    by (rewrite Hmethod; apply list_elem_of_singleton; reflexivity).
  eexists. split; [reflexivity|]. intros name.
  rewrite lookup_fmap, map_lookup_filter.
  destruct (get_all_models_schema apps_get_models None !! name) as [schema|];
    simpl; [|by case_bool_decide].
  case_bool_decide; by simplify_option_eq.
Qed.

Lemma get_all_schemas_view_answers_witness :
  exists data,
    Views.get_all_schemas_view [blog_Tag; auth_Group; Tag] (Views.mkRequest "GET")
    = Views.JsonResponse data 200
    /\ forall name,
         data !! name
         = if bool_decide (name ∈ Views.ALLOWED_MODELS)
           then PDict <$> get_all_models_schema [blog_Tag; auth_Group; Tag] None !! name
           else None.
Proof.
  exact (get_all_schemas_view_answers [blog_Tag; auth_Group; Tag]
           (Views.mkRequest "GET") eq_refl).
Defined.

(** The only path the pattern [api/schema/all/] matches. *)
Lemma match_all_route (path : list string) (kwargs : list (string * string)) :
  Urls.match_route [Urls.Literal "api"; Urls.Literal "schema"; Urls.Literal "all"]
    false path = Some kwargs ->
  path = ["api"; "schema"; "all"].
Proof.
  destruct path as [|a [|b [|c [|d path]]]]; cbn [Urls.match_route];
    try discriminate.
  - destruct (String.eqb_spec "api" a); discriminate.
  - destruct (String.eqb_spec "api" a); [|discriminate].
    destruct (String.eqb_spec "schema" b); discriminate.
  - destruct (String.eqb_spec "api" a) as [<-|]; [|discriminate].
    destruct (String.eqb_spec "schema" b) as [<-|]; [|discriminate].
    destruct (String.eqb_spec "all" c) as [<-|]; [|discriminate].
    reflexivity.
  - destruct (String.eqb_spec "api" a); [|discriminate].
    destruct (String.eqb_spec "schema" b); [|discriminate].
    destruct (String.eqb_spec "all" c); discriminate.
Qed.

(** X9: the pattern [api/schema/<str:model_name>/] stands before
    [api/schema/all/] in [urlpatterns], so no path is resolved to
    [get_all_schemas_view]: the one path its pattern matches goes to
    [get_schema_view] with [model_name = 'all'], which answers a GET with
    403, [all] being no allowed model. *)
Theorem get_all_schemas_view_is_shadowed (path : list string)
    (apps_get_models : list Model)
    (apps_get_model : string -> string -> option Model) :
  (forall kwargs,
     Urls.resolve Urls.urlpatterns path <> Some (Urls.get_all_schemas_view, kwargs))
  /\ Urls.resolve Urls.urlpatterns ["api"; "schema"; "all"]
     = Some (Urls.get_schema_view, [("model_name", "all")])
  /\ Views.get_schema_view apps_get_models apps_get_model (Views.mkRequest "GET") "all"
     = Views.JsonResponse {["error" := PStr "Model all is not accessible"]} 403.
Proof.
  split; [|split; reflexivity].
  intros kwargs. unfold Urls.urlpatterns. cbn [Urls.resolve Urls.route Urls.include Urls.target].
  destruct (Urls.match_route [Urls.Literal "admin"] true path); [discriminate|].
  destruct (Urls.match_route [Urls.Literal "api"; Urls.Literal "health"] false path);
    [discriminate|].
  destruct (Urls.match_route
              [Urls.Literal "api"; Urls.Literal "schema"; Urls.StrParam "model_name"]
              false path) eqn:Hschema; [discriminate|].
  destruct (Urls.match_route
              [Urls.Literal "api"; Urls.Literal "schema"; Urls.Literal "all"]
              false path) eqn:Hall; [|discriminate].
  apply match_all_route in Hall as ->. discriminate Hschema.
Qed.

(** The other routes resolve as written. *)
Example resolve_examples :
  Urls.resolve Urls.urlpatterns ["api"; "health"] = Some (Urls.health_check, [])
  /\ Urls.resolve Urls.urlpatterns ["api"; "schema"; "Task"]
     = Some (Urls.get_schema_view, [("model_name", "Task")])
  /\ Urls.resolve Urls.urlpatterns ["admin"; "login"] = Some (Urls.admin_site_urls, [])
  /\ Urls.resolve Urls.urlpatterns ["api"; "tasks"] = None.
Proof. repeat split; reflexivity. Qed.

(** * Further properties of the paginator and of [get_all] *)

Section MorePagination.
Context {A : Type}.
Implicit Types (object_list : list A) (per_page number : Z).






(** What [get_page] does with a page size that is not positive. *)
Lemma get_page_bad_size object_list per_page number :
  per_page <= 0 ->
  Paginator.get_page (Paginator.new object_list per_page) number
  = Raise (if per_page =? 0 then ZeroDivisionError else EmptyPage).
Proof.
  intros Hsize.
  unfold Paginator.get_page, Paginator.validate_number, Paginator.page,
    Paginator.validate_number, Paginator.num_pages, Paginator.count. simpl.
  rewrite andb_false_r.
  destruct (Z.eqb_spec per_page 0) as [->|Hnegative].
  - by destruct (Z.ltb_spec number 1).
  - set (hits := Z.max 1 (Z.of_nat (length object_list) - 0)).
    assert (Hpages : Paginator.ceil_div hits per_page <= 0).
    { unfold Paginator.ceil_div.
      pose proof (Z.div_mod (- hits) per_page Hnegative).
      pose proof (Z.mod_neg_bound (- hits) per_page ltac:(lia)).
      subst hits. nia. }
    destruct (Z.ltb_spec number 1); simpl.
    + unfold mbind, outcome_mbind, outcome_bind. simpl.
      by destruct (Z.ltb_spec (Paginator.ceil_div hits per_page) 1); [|lia].
    + unfold mbind, outcome_mbind, outcome_bind. simpl.
      destruct (Z.ltb_spec (Paginator.ceil_div hits per_page) number); [|lia].
      simpl. by destruct (Z.ltb_spec (Paginator.ceil_div hits per_page) 1); [|lia].
Qed.

End MorePagination.

Example pages_of_three_tags :
  page_rows tags_by_name 2 1 = [tag_row 1 "backend" "#3B82F6"; tag_row 2 "frontend" "#10B981"]
  /\ page_rows tags_by_name 2 2 = [tag_row 3 "urgent" "#EF4444"]
  /\ page_rows tags_by_name 2 0 = [tag_row 3 "urgent" "#EF4444"].
Proof. repeat split; vm_compute; reflexivity. Qed.





(** X13: with a page size of zero [get_all] raises [ZeroDivisionError],
    and with a negative one [EmptyPage], for every page number; the table
    is not touched. *)
Theorem get_all_bad_page_size {model_class : ModelClass}
    (filters : option (list (string * pyobj))) (order_by : option (list string))
    (db : Table) (queryset : list Instance) (page page_size : Z) :
  Repository.get_all_queryset filters order_by db = (Return queryset, db) ->
  page_size <= 0 ->
  Repository.get_all filters order_by page page_size db
  = (Raise (if page_size =? 0 then ZeroDivisionError else EmptyPage), db).
Proof.
  intros Hqueryset Hsize.
  unfold Repository.get_all, mbind, M_mbind, M_bind.
  rewrite Hqueryset. unfold lift.
  by rewrite get_page_bad_size by exact Hsize.
Qed.

Lemma get_all_bad_page_size_witness :
  Repository.get_all (model_class := Tag_class ONone) None None 1 0 three_tags
  = (Raise ZeroDivisionError, three_tags)
  /\ Repository.get_all (model_class := Tag_class ONone) None None 1 (-5) three_tags
     = (Raise EmptyPage, three_tags).
Proof.
  split.
  - exact (get_all_bad_page_size (model_class := Tag_class ONone)
             None None three_tags tags_by_name 1 0
             ltac:(by vm_compute) ltac:(lia)).
  - exact (get_all_bad_page_size (model_class := Tag_class ONone)
             None None three_tags tags_by_name 1 (-5)
             ltac:(by vm_compute) ltac:(lia)).
Defined.

(** * Further properties of the repository *)






(** The new tag gets the key 4 and the time of the call. *)
Example create_a_tag :
  fst (Repository.create (model_class := Tag_class (OStr "2024-05-01"))
         [("name", OStr "ops")] three_tags)
  = Return (list_to_map [("id", OInt 4); ("name", OStr "ops");
                         ("color", OStr "#3B82F6");
                         ("created_at", OStr "2024-05-01")]).
Proof. vm_compute. reflexivity. Qed.



(** X16: [delete] answers whether the record was there, leaves the table
    without it, so that a following [get_by_id] returns [None], and
    touches no other record. *)
Theorem delete_removes_one_record (db : Table) (id : Z) :
  exists db',
    Repository.delete id db = (Return (bool_decide (is_Some (db !! id))), db')
    /\ Repository.get_by_id id db' = (Return None, db')
    /\ forall id', id' <> id -> db' !! id' = db !! id'.
Proof.
  exists (delete id db). split; [apply delete_outcome|]. split.
  - unfold Repository.get_by_id, Repository.objects_get.
    by rewrite lookup_delete_eq.
  - intros id' Hother. by apply lookup_delete_ne.
Qed.

(** * Properties of the model methods *)



(** A task moved back from [done] loses its completion time. *)
Example reopened_task :
  getattr (Task_save_hook (OObject "2024-05-01 10:00:00" None)
             (list_to_map [("status", OStr "todo");
                           ("completed_at", OObject "2024-04-30 09:00:00" None)]))
          "completed_at" = ONone.
Proof. vm_compute. reflexivity. Qed.

(** X18: [Project.clean] raises only when both dates are set and the
    deadline is earlier than the start date; the error is a
    [ValidationError] on [deadline].  A deadline on the start date itself
    passes, as does a project with either date missing. *)
Theorem Project_clean_dates (start_date deadline : option Z) :
  (Project_clean start_date deadline
   = Raise (ValidationError {["deadline" := ["Deadline must be after start date"]]})
   <-> exists start_day deadline_day,
         start_date = Some start_day /\ deadline = Some deadline_day
         /\ deadline_day < start_day)
  /\ (Project_clean start_date deadline = Return tt
      <-> forall start_day deadline_day,
            start_date = Some start_day -> deadline = Some deadline_day ->
            start_day <= deadline_day)
  /\ Project_clean start_date start_date = Return tt.
Proof.
  unfold Project_clean.
  destruct start_date as [start_day|], deadline as [deadline_day|];
    try (split; [split; [discriminate | by intros (? & ? & ? & ? & ?)]|];
         split; [split; [by intros | reflexivity]|]; try reflexivity;
         by rewrite Z.ltb_irrefl).
  destruct (Z.ltb_spec deadline_day start_day).
  - split; [split; [by eauto | reflexivity]|].
    split; [split; [discriminate|]|by rewrite Z.ltb_irrefl].
    intros Hle. specialize (Hle _ _ eq_refl eq_refl). lia.
  - split; [split; [discriminate|]|].
    + intros (? & ? & [= <-] & [= <-] & ?). lia.
    + split; [split; [by intros _ ? ? [= <-] [= <-] | reflexivity]|].
      by rewrite Z.ltb_irrefl.
Qed.
